(** * chatty-backend: bootstrap, error taxonomy and middleware pipeline

    A shallow embedding of [shared/globals/helpers/error-handler.ts],
    [config.ts], [setupDatabase.ts], [setupServer.ts] and [app.ts], and the
    properties of the specification that concern them. *)

From stdpp Require Import base strings list gmap pretty sorting.
From Stdlib Require Import ZArith.

Local Open Scope Z_scope.
Local Open Scope string_scope.
Local Open Scope list_scope.

(** ** Library constants *)

(** Modelled from the spec: the numeric constants of the npm package
    [http-status-codes], which the sources import as [HTTP_STATUS] and which
    is not part of the repository.  The values are the ones the taxonomy
    table of the specification documents (400, 401, 404, 413, 503). *)
Module HTTP_STATUS.
Definition BAD_REQUEST : Z := 400.
Definition UNAUTHORIZED : Z := 401.
Definition NOT_FOUND : Z := 404.
Definition REQUEST_TOO_LONG : Z := 413.
Definition SERVICE_UNAVAILABLE : Z := 503.
End HTTP_STATUS.

(** ** error-handler.ts *)

(** [interface IError]: the record that goes over the wire. *)
Module IError.
Record t := mk { message : string; status : string; statusCode : Z }.
End IError.

(** The concrete subclasses of the abstract class [CustomError]. *)
Inductive ErrorClass :=
| JoiRequestValidationError
| BadRequestError
| NotFoundError
| NotAuthourizeError
| FileTooLargeError
| ServerError.

Global Instance ErrorClass_eq_dec : EqDecision ErrorClass.
Proof. solve_decision. Defined.

(** An instance of a subclass of [CustomError]: the [message] inherited from
    [Error] and the two instance fields every subclass initialises. *)
Module CustomError.
Record t := mk {
    class : ErrorClass;
    message : string;
    statusCode : Z;
    status : string
  }.

(** [new K(message)]: [super(message)] stores the message, the field
    initialisers of class [K] set [statusCode] and [status]. *)
Definition new (k : ErrorClass) (msg : string) : t :=
    match k with
    | JoiRequestValidationError => mk k msg HTTP_STATUS.BAD_REQUEST "error"
    | BadRequestError => mk k msg HTTP_STATUS.BAD_REQUEST "error"
    | NotFoundError => mk k msg HTTP_STATUS.NOT_FOUND "error"
    | NotAuthourizeError => mk k msg HTTP_STATUS.UNAUTHORIZED "error"
    | FileTooLargeError => mk k msg HTTP_STATUS.REQUEST_TOO_LONG "error"
    | ServerError => mk k msg HTTP_STATUS.SERVICE_UNAVAILABLE "error"
    end.

Definition serializeErrors (this : t) : IError.t :=
    {| IError.message := message this;
       IError.status := status this;
       IError.statusCode := statusCode this |}.
End CustomError.

(** A value that can be thrown or passed to [next]: an instance of a
    [CustomError] subclass, or anything else (a plain [Error], a [TypeError]
    of the runtime, a driver error, ...) with its name, message and stack. *)
Inductive Thrown :=
| ThrownCustom (e : CustomError.t)
| ThrownOther (name message stack : string).

(** [error instanceof CustomError] *)
Definition instanceof_CustomError (e : Thrown) : bool :=
  match e with ThrownCustom _ => true | ThrownOther _ _ _ => false end.

(** The status code the taxonomy table of the specification documents for
    each kind. *)
Definition documented_statusCode (k : ErrorClass) : Z :=
  match k with
  | JoiRequestValidationError => 400
  | BadRequestError => 400
  | NotAuthourizeError => 401
  | NotFoundError => 404
  | FileTooLargeError => 413
  | ServerError => 503
  end.

(** ** Effects: the process as the sources see it *)

(** How a promise of a collaborator (database driver, broker client) ends. *)
Inductive Settle :=
| Fulfilled
| Rejected (e : Thrown)
| Pending.

(** The two broker links of [createSocketIO]. *)
Inductive Link := pubClient | subClient.

Global Instance Link_eq_dec : EqDecision Link.
Proof. solve_decision. Defined.

(** An argument of a logger call. *)
Inductive LogArg :=
| LogStr (s : string)
| LogErr (e : Thrown).

(** What the process does to the outside, in program order. *)
Inductive Event :=
| EvLogInfo (logger msg : string)
| EvLogError (logger : string) (args : list LogArg)
| EvProcessExit (code : Z)
| EvMongooseConnect (url : string)
| EvMongooseOnDisconnected
| EvNewHttpServer
| EvNewSocketServer (origin : option string) (methods : list string)
| EvCreateClient (url : option string)
| EvDuplicate
| EvConnectCalled (c : Link)
| EvConnected (c : Link)
| EvIoAdapter
| EvListen (port : Z).

(** How a piece of code ends: it returns, it throws, it calls
    [process.exit], or it waits for ever on a promise that never settles. *)
Inductive Res (A : Type) :=
| Ret (a : A)
| Throw (e : Thrown)
| Exit (code : Z)
| Blocked.
Arguments Ret {A} a.
Arguments Throw {A} e.
Arguments Exit {A} code.
Arguments Blocked {A}.

(** ** config.ts *)

(** [a || b] on [string | undefined]: the left operand unless it is falsy
    ([undefined] or the empty string). *)
Definition js_or (a : option string) (b : string) : string :=
  match a with
  | Some s => if decide (s = "") then b else s
  | None => b
  end.

(** An instance of [class Config].  The seven public fields have the type
    [string | undefined]; the private field holds the default database
    address. *)
Module Config.
Record t := mk {
  DEFAULT_DATABASE_URL : string;
  DATABASE_URL : option string;
  JWT_TOKEN : option string;
  NODE_ENV : option string;
  SECRET_KEY_ONE : option string;
  SECRET_KEY_TWO : option string;
  CLIENT_URL : option string;
  REDIS_HOST : option string
}.

(** [new Config()], reading [process.env]. *)
Definition new (process_env : gmap string string) : t :=
  let DEFAULT := "mongodb://127.0.0.1:27017/chattyapp-backend" in
  {| DEFAULT_DATABASE_URL := DEFAULT;
     DATABASE_URL := Some (js_or (process_env !! "DATABASE_URL") DEFAULT);
     JWT_TOKEN := Some (js_or (process_env !! "JWT_TOKEN") "1234");
     NODE_ENV := Some (js_or (process_env !! "NODE_ENV") "");
     SECRET_KEY_ONE := Some (js_or (process_env !! "SECRET_KEY_ONE") "");
     SECRET_KEY_TWO := Some (js_or (process_env !! "SECRET_KEY_TWO") "");
     CLIENT_URL := Some (js_or (process_env !! "CLIENT_URL") "");
     REDIS_HOST := Some (js_or (process_env !! "REDIS_HOST") "") |}.

(** [Object.entries(this)]: the own properties in creation order, the
    initialised private field first, then the fields in the order the
    constructor assigns them. *)
Definition entries (this : t) : list (string * option string) :=
  [ ("DEFAULT_DATABASE_URL", Some (DEFAULT_DATABASE_URL this));
    ("DATABASE_URL", DATABASE_URL this);
    ("JWT_TOKEN", JWT_TOKEN this);
    ("NODE_ENV", NODE_ENV this);
    ("SECRET_KEY_ONE", SECRET_KEY_ONE this);
    ("SECRET_KEY_TWO", SECRET_KEY_TWO this);
    ("CLIENT_URL", CLIENT_URL this);
    ("REDIS_HOST", REDIS_HOST this) ].

(** The loop of [validateConfig] over the entries: the first [undefined]
    value throws. *)
Fixpoint validate_entries (es : list (string * option string)) : Res unit :=
  match es with
  | [] => Ret tt
  | (key, None) :: _ =>
      Throw (ThrownOther "Error" ("Configuration " +:+ key +:+ " is undefined.") "")
  | (_, Some _) :: rest => validate_entries rest
  end.

Definition validateConfig (this : t) : Res unit := validate_entries (entries this).
End Config.

(** The required environment-derived settings of the specification and the
    environment variable each is read from. *)
Definition required_settings : list string :=
  [ "DATABASE_URL"; "SECRET_KEY_ONE"; "SECRET_KEY_TWO"; "CLIENT_URL";
    "REDIS_HOST"; "JWT_TOKEN"; "NODE_ENV" ].

(** ** The Express application as the sources use it *)

(** A JSON value, as far as the response bodies of these files go. *)
#[warnings="-register-all"]
Inductive JsonValue :=
| JString (s : string)
| JNumber (n : Z)
| JObject (fields : list (string * JsonValue)).

(** The object [serializeErrors] returns, as [res.json] receives it. *)
Definition IError_to_json (e : IError.t) : JsonValue :=
  JObject [ ("message", JString (IError.message e));
            ("status", JString (IError.status e));
            ("statusCode", JNumber (IError.statusCode e)) ].

Record Request := mkRequest { method : string; originalUrl : string }.

(** What a handler does with a request: it answers with a JSON body
    ([res.status(s).json(b)]), it hands the request on ([next()]), it fails
    (it throws, or calls [next(err)]), or it answers without a body
    ([res.statusCode = s; res.end()]). *)
Inductive Action :=
| Respond (status : Z) (body : JsonValue)
| CallNext
| Raise (e : Thrown)
| RespondEmpty (status : Z).

(** A route mounted by [applicationRoutes]: the requests it matches and
    what its handler does with them. *)
Record RouteDef := mkRoute {
  r_matches : Request -> bool;
  r_handler : Request -> Action
}.

(** A layer of the application's stack: one constructor for each
    [app.use]/[app.all] of [setupServer.ts], with the options it is given,
    and one for a route of [applicationRoutes]. *)
Inductive Layer :=
| cookierSession (name : string) (keys : list (option string)) (maxAge : Z)
    (secure : bool)
| hpp
| helmet
| cors (origin : option string) (credentials : bool)
    (optionsSuccessStatus : Z) (methods : list string)
| compression
| json (limit : string)
| urlencoded (extended : bool) (limit : string)
| route (r : RouteDef)
| all_star
| error_middleware.

(** The stages of the middleware pipeline of the specification. *)
Inductive Stage :=
| SecurityStage
| BodyDecodingStage
| RouteDispatchStage
| NotFoundStage
| ErrorTranslationStage.

Definition stage_rank (s : Stage) : nat :=
  match s with
  | SecurityStage => 0
  | BodyDecodingStage => 1
  | RouteDispatchStage => 2
  | NotFoundStage => 3
  | ErrorTranslationStage => 4
  end%nat.

Definition stage_of (l : Layer) : Stage :=
  match l with
  | cookierSession _ _ _ _ | hpp | helmet | cors _ _ _ _ => SecurityStage
  | compression | json _ | urlencoded _ _ => BodyDecodingStage
  | route _ => RouteDispatchStage
  | all_star => NotFoundStage
  | error_middleware => ErrorTranslationStage
  end.

(** ** The effect monad *)

(** The application's stack of layers and the events so far. *)
Record World := mkWorld { stack : list Layer; trace : list Event }.

Definition M (A : Type) : Type := World -> Res A * World.

Definition ret {A} (a : A) : M A := fun w => (Ret a, w).

Definition bind {A B} (m : M A) (k : A -> M B) : M B :=
  fun w =>
    match m w with
    | (Ret a, w') => k a w'
    | (Throw e, w') => (Throw e, w')
    | (Exit c, w') => (Exit c, w')
    | (Blocked, w') => (Blocked, w')
    end.

Declare Scope js_scope.
Delimit Scope js_scope with js.
Notation "x <- m ;; k" := (bind m (fun x => k))
  (at level 100, m at next level, right associativity) : js_scope.
Notation "m ;; k" := (bind m (fun _ => k))
  (at level 100, right associativity) : js_scope.
Local Open Scope js_scope.

Definition emit (e : Event) : M unit :=
  fun w => (Ret tt, {| stack := stack w; trace := trace w ++ [e] |}).

(** [app.use(l)] / [app.all(...)]: the layer goes to the end of the stack. *)
Definition app_use (l : Layer) : M unit :=
  fun w => (Ret tt, {| stack := stack w ++ [l]; trace := trace w |}).

Definition throw {A} (e : Thrown) : M A := fun w => (Throw e, w).

(** [process.exit(code)]: nothing runs after it. *)
Definition process_exit {A} (code : Z) : M A :=
  fun w => (Exit code, {| stack := stack w; trace := trace w ++ [EvProcessExit code] |}).

(** [try { m } catch (error) { h error }] *)
Definition try_catch {A} (m : M A) (h : Thrown -> M A) : M A :=
  fun w =>
    match m w with
    | (Throw e, w') => h e w'
    | r => r
    end.

(** A value computed elsewhere that may be a throw. *)
Definition lift {A} (r : Res A) : M A := fun w => (r, w).

(** [await p] for a promise that settles as [s]. *)
Definition await (s : Settle) : M unit :=
  match s with
  | Fulfilled => ret tt
  | Rejected e => throw e
  | Pending => lift Blocked
  end.

(** Calling an [async] function without awaiting it: the caller goes on
    whatever becomes of the call, short of [process.exit]. *)
Definition detached (m : M unit) : M unit :=
  fun w =>
    match m w with
    | (Exit c, w') => (Exit c, w')
    | (_, w') => (Ret tt, w')
    end.

(** A logger made by [config.createLogger(name)]. *)
Definition log_info (logger msg : string) : M unit := emit (EvLogInfo logger msg).
Definition log_error (logger : string) (args : list LogArg) : M unit :=
  emit (EvLogError logger args).

(** [`${v}`] for [v : string | undefined]. *)
Definition template (v : option string) : string := default "undefined" v.

(** ** What the outside world answers *)

(** Everything the run of the process depends on and the sources do not
    decide: the environment variables, the process id, whether
    [createClient] accepts the broker address or throws (the client library
    throws a [TypeError] for an address that is not a URL), how and in which
    order the [connect()] promises of the two clients settle once they are
    called, and whether the port can be bound. *)
Record Runtime := mkRuntime {
  process_env : gmap string string;
  process_pid : Z;
  create_client : option Thrown;
  pub_promise : Settle;
  sub_promise : Settle;
  pub_settles_first : bool;
  port_bound : bool
}.

(** How bringing up a broker link ends: when [createClient] throws, neither
    client comes to exist and both links fail with that error; otherwise the
    link ends as the [connect()] promise of its client settles. *)
Definition pub_connect (rt : Runtime) : Settle :=
  match create_client rt with
  | Some e => Rejected e
  | None => pub_promise rt
  end.

Definition sub_connect (rt : Runtime) : Settle :=
  match create_client rt with
  | Some e => Rejected e
  | None => sub_promise rt
  end.

(** ** setupDatabase.ts *)

Module SetupDatabase.

Definition log := "setupDatabase".

(** What the driver reports back after [mongoose.connect] was called: the
    promise of a call fulfils or rejects, or an established connection is
    lost. *)
Inductive Signal :=
| ConnectFulfilled
| ConnectRejected (error : Thrown)
| Disconnected.

Section WithConfig.
Variable config : Config.t.

(** The inner [connect]: the call itself; the [.then] and [.catch]
    callbacks run when the promise settles, see [on_signal]. *)
Definition connect : M unit :=
  emit (EvMongooseConnect (template (Config.DATABASE_URL config))).

(** The exported function: connect, then register [connect] as the
    listener of the ['disconnected'] event. *)
Definition databaseConnection : M unit :=
  connect ;;
  emit EvMongooseOnDisconnected.

(** The callbacks: [.then], [.catch] and the ['disconnected'] listener. *)
Definition on_signal (s : Signal) : M unit :=
  match s with
  | ConnectFulfilled => log_info log "Successfully connected to database"
  | ConnectRejected error =>
      log_error log [LogStr "Error connecting to database"; LogErr error] ;;
      process_exit 1
  | Disconnected => connect
  end.

(** The callbacks for a sequence of signals, one after the other; after
    [process.exit] none runs. *)
Fixpoint deliver (ss : list Signal) : M unit :=
  match ss with
  | [] => ret tt
  | s :: rest => on_signal s ;; deliver rest
  end.

End WithConfig.
End SetupDatabase.

(** ** setupServer.ts *)

Module ChattyServer.

Definition SERVER_PORT : Z := 5000.
Definition log := "server".

Definition allowed_methods : list string :=
  ["GET"; "POST"; "PUT"; "DELETE"; "OPTIONS"].

(** [await Promise.all(ps)], the promises listed in the order in which they
    settle: the first rejection is thrown; without one, the wait ends when
    all have fulfilled and never if one stays pending. *)
Fixpoint await_all (ps : list (Link * Settle)) (pending : bool) : M unit :=
  match ps with
  | [] => if pending then lift Blocked else ret tt
  | (c, Fulfilled) :: rest => emit (EvConnected c) ;; await_all rest pending
  | (_, Rejected e) :: _ => throw e
  | (_, Pending) :: rest => await_all rest true
  end.

Section WithApp.
Variable config : Config.t.
Variable rt : Runtime.

(** The routes [applicationRoutes] of [./routes] mounts on the application;
    that module is not among the sources. *)
Variable routes : list RouteDef.

(** What the code outside the sources does with a request at a layer.  For
    a layer of a library ([cookie-session], [hpp], [helmet], [cors],
    [compression], [express.json], [express.urlencoded]) it is what that
    middleware does.  For [app.all('*', ...)] it is the framework's matching
    of the path against ['*'], which decodes the path: [Raise e] when the
    decoding fails with [e] (a [URIError] for a malformed percent-encoding),
    anything else when the path matches. *)
Variable library : Layer -> Request -> Action.

Definition securityMiddleware : M unit :=
  app_use (cookierSession "session"
             [Config.SECRET_KEY_ONE config; Config.SECRET_KEY_TWO config]
             (24 * 7 * 3600000)
             (negb (bool_decide (Config.NODE_ENV config = Some "development")))) ;;
  app_use hpp ;;
  app_use helmet ;;
  app_use (cors (Config.CLIENT_URL config) true 200 allowed_methods).

Definition standardMiddleware : M unit :=
  app_use compression ;;
  app_use (json "50mb") ;;
  app_use (urlencoded true "50mb").

Fixpoint applicationRoutes (rs : list RouteDef) : M unit :=
  match rs with
  | [] => ret tt
  | r :: rest => app_use (route r) ;; applicationRoutes rest
  end.

Definition routesMiddleware : M unit := applicationRoutes routes.

(** The handler of [app.all('*', ...)]. *)
Definition notFoundHandler (req : Request) : Action :=
  Respond HTTP_STATUS.NOT_FOUND
    (JObject [("message", JString (originalUrl req +:+ " not found"))]).

(** The four-argument handler of [app.use]: what it logs and what it does
    with the response. *)
Definition errorHandler (error : Thrown) (_req : Request) : list Event * Action :=
  ([EvLogError log [LogErr error]],
   match error with
   | ThrownCustom e =>
       Respond (CustomError.statusCode e)
         (IError_to_json (CustomError.serializeErrors e))
   | ThrownOther _ _ _ => CallNext
   end).

Definition globalErrorHandler : M unit :=
  app_use all_star ;;
  app_use error_middleware.

(** [createClient({ url })]: the call, which throws when the library
    refuses the address. *)
Definition createClient (url : option string) : M unit :=
  emit (EvCreateClient url) ;;
  match create_client rt with
  | Some e => throw e
  | None => ret tt
  end.

Definition createSocketIO : M unit :=
  emit (EvNewSocketServer (Config.CLIENT_URL config) allowed_methods) ;;
  createClient (Config.REDIS_HOST config) ;;
  emit EvDuplicate ;;
  emit (EvConnectCalled pubClient) ;;
  emit (EvConnectCalled subClient) ;;
  await_all (if pub_settles_first rt
             then [(pubClient, pub_promise rt); (subClient, sub_promise rt)]
             else [(subClient, sub_promise rt); (pubClient, pub_promise rt)])
            false ;;
  emit EvIoAdapter.

Definition startHttpServer : M unit :=
  log_info log ("Server has started with process " +:+ pretty (process_pid rt)) ;;
  emit (EvListen SERVER_PORT) ;;
  if port_bound rt
  then log_info log ("Server running on port " +:+ pretty SERVER_PORT)
  else ret tt.

Definition socketIOConnections : M unit := ret tt.

Definition startServer : M unit :=
  try_catch
    (emit EvNewHttpServer ;;
     createSocketIO ;;
     startHttpServer ;;
     socketIOConnections)
    (fun error => log_error log [LogErr error]).

Definition start : M unit :=
  securityMiddleware ;;
  standardMiddleware ;;
  routesMiddleware ;;
  globalErrorHandler ;;
  detached startServer.

(** *** A request through the stack *)

(** How a request ends: a stage answered it, with a JSON body or without a
    body, or the stack is exhausted and the framework's own last resort
    takes over, with a failure still pending or not. *)
Inductive Final :=
| Sent (status : Z) (body : JsonValue)
| Unanswered (pending : option Thrown)
| SentEmpty (status : Z).

(** What a layer other than the error middleware does with a request.  The
    handler of [app.all('*', ...)] runs only when the framework could decode
    the path; a failure of the decoding is a failure of the layer. *)
Definition run_layer (l : Layer) (req : Request) : Action :=
  match l with
  | route r => if r_matches r req then r_handler r req else CallNext
  | all_star =>
      match library all_star req with
      | Raise e => Raise e
      | _ => notFoundHandler req
      end
  | l => library l req
  end.

(** The router's walk down the stack: with no failure pending the error
    middleware is passed over, with one pending every other layer is. *)
Fixpoint dispatch (layers : list Layer) (pending : option Thrown)
    (req : Request) : list Event * Final :=
  match layers with
  | [] => ([], Unanswered pending)
  | l :: rest =>
      match pending, l with
      | None, error_middleware => dispatch rest None req
      | None, _ =>
          match run_layer l req with
          | Respond s b => ([], Sent s b)
          | CallNext => dispatch rest None req
          | Raise e => dispatch rest (Some e) req
          | RespondEmpty s => ([], SentEmpty s)
          end
      | Some e, error_middleware =>
          let '(logged, act) := errorHandler e req in
          match act with
          | Respond s b => (logged, Sent s b)
          | CallNext =>
              let '(more, fin) := dispatch rest None req in (logged ++ more, fin)
          | Raise e' =>
              let '(more, fin) := dispatch rest (Some e') req in (logged ++ more, fin)
          | RespondEmpty s => (logged, SentEmpty s)
          end
      | Some e, _ => dispatch rest (Some e) req
      end
  end.

End WithApp.
End ChattyServer.

(** ** app.ts *)

Module Application.
Section WithRuntime.
Variable config : Config.t.
Variable rt : Runtime.
Variable routes : list RouteDef.

Definition loadConfig : M unit := lift (Config.validateConfig config).

(** [express()]: a new application, with nothing mounted. *)
Definition express : M unit :=
  fun w => (Ret tt, {| stack := []; trace := trace w |}).

Definition initialize : M unit :=
  loadConfig ;;
  SetupDatabase.databaseConnection config ;;
  express ;;
  ChattyServer.start config rt routes.

End WithRuntime.

(** The module's top level: the singleton [config] is built from the
    environment, then [application.initialize()] runs. *)
Definition main (rt : Runtime) (routes : list RouteDef) : M unit :=
  initialize (Config.new (process_env rt)) rt routes.

End Application.

(** The world before the process has done anything. *)
Definition boot : World := {| stack := []; trace := [] |}.

(** ** Notions the properties are stated with *)

(** The events [startServer] adds and the way it ends, seen from a process
    that has done nothing yet. *)
Definition startServer_events (config : Config.t) (rt : Runtime) : list Event :=
  trace (ChattyServer.startServer config rt boot).2.

Definition startServer_result (config : Config.t) (rt : Runtime) : Res unit :=
  (ChattyServer.startServer config rt boot).1.

(** The layers [start] mounts, stage by stage. *)
Definition security_layers (config : Config.t) : list Layer :=
  [ cookierSession "session"
      [Config.SECRET_KEY_ONE config; Config.SECRET_KEY_TWO config] 604800000
      (negb (bool_decide (Config.NODE_ENV config = Some "development")));
    hpp; helmet;
    cors (Config.CLIENT_URL config) true 200 ["GET"; "POST"; "PUT"; "DELETE"; "OPTIONS"] ].

Definition standard_layers : list Layer :=
  [ compression; json "50mb"; urlencoded true "50mb" ].

Definition installed_layers (config : Config.t) (routes : list RouteDef) : list Layer :=
  security_layers config ++ standard_layers ++ (route <$> routes)
  ++ [all_star; error_middleware].

(** A layer belongs to a stage that is not later than the other's. *)
Definition stage_le (a b : Layer) : Prop :=
  (stage_rank (stage_of a) <= stage_rank (stage_of b))%nat.


(** A status of the 500 class. *)
Definition is_5xx (status : Z) : Prop := 500 <= status <= 599.

(** ** Concrete runs *)

(** An environment that sets every required variable but the database
    connection string. *)
Definition env_no_database_url : gmap string string :=
  {[ "JWT_TOKEN" := "token-secret";
     "NODE_ENV" := "development";
     "SECRET_KEY_ONE" := "first-key";
     "SECRET_KEY_TWO" := "second-key";
     "CLIENT_URL" := "http://localhost:3000";
     "REDIS_HOST" := "redis://localhost:6379" ]}.

(** Both broker links connect, the publish side first, and the port is
    free. *)
Definition rt_links_up : Runtime :=
  {| process_env := env_no_database_url;
     process_pid := 4242;
     create_client := None;
     pub_promise := Fulfilled;
     sub_promise := Fulfilled;
     pub_settles_first := true;
     port_bound := true |}.

Definition econnrefused : Thrown :=
  ThrownOther "Error" "connect ECONNREFUSED 127.0.0.1:6379" "".

(** The broker refuses the publish-side link; the subscribe side would
    connect. *)
Definition rt_pub_refused : Runtime :=
  {| process_env := env_no_database_url;
     process_pid := 4242;
     create_client := None;
     pub_promise := Rejected econnrefused;
     sub_promise := Fulfilled;
     pub_settles_first := true;
     port_bound := true |}.

Definition get_nope : Request := {| method := "GET"; originalUrl := "/nope" |}.

(** Library middleware that lets every request through. *)
Definition passing_library : Layer -> Request -> Action := fun _ _ => CallNext.

Definition type_error : Thrown :=
  ThrownOther "TypeError" "Cannot read properties of undefined (reading 'id')"
    "at getUser (user.controller.js:12:31)".

(** A route for [/api/v1/user] whose handler fails with a fault of the
    runtime. *)
Definition user_route : RouteDef :=
  {| r_matches := fun req => bool_decide (originalUrl req = "/api/v1/user");
     r_handler := fun _ => Raise type_error |}.

Definition get_user : Request := {| method := "GET"; originalUrl := "/api/v1/user" |}.

(** [OPTIONS /nope]: a preflight for a path no route is mounted for. *)
Definition options_nope : Request := {| method := "OPTIONS"; originalUrl := "/nope" |}.

(** The [cors] middleware as its package behaves on a preflight: with an
    origin configured (and [preflightContinue] left unset, as in
    [securityMiddleware]) it answers every [OPTIONS] request itself, with
    its [optionsSuccessStatus] and no body; everything else is handed on. *)
Definition cors_preflight_library : Layer -> Request -> Action :=
  fun l req =>
    match l with
    | cors (Some o) _ s _ =>
        if bool_decide (o <> "" /\ method req = "OPTIONS")
        then RespondEmpty s
        else CallNext
    | _ => CallNext
    end.

(** A path whose percent-encoding is cut short, and the failure of the
    framework to decode it. *)
Definition get_malformed : Request := {| method := "GET"; originalUrl := "/%E0%A4%A" |}.

Definition uri_error : Thrown :=
  ThrownOther "URIError" "Failed to decode param '/%E0%A4%A'" "".

(** The framework's matching against ['*'] failing on that path; the
    library middleware hands everything on. *)
Definition undecodable_path_library : Layer -> Request -> Action :=
  fun l req =>
    match l with
    | all_star =>
        if bool_decide (originalUrl req = "/%E0%A4%A") then Raise uri_error
        else CallNext
    | _ => CallNext
    end.

(** The failure of [createClient] on an address that is not a URL, and a
    run in which it happens. *)
Definition invalid_url : Thrown := ThrownOther "TypeError" "Invalid URL" "".

Definition rt_invalid_url : Runtime :=
  {| process_env := {[ "REDIS_HOST" := "localhost" ]};
     process_pid := 4242;
     create_client := Some invalid_url;
     pub_promise := Fulfilled;
     sub_promise := Fulfilled;
     pub_settles_first := true;
     port_bound := true |}.

(** A settings object whose broker address is undefined. *)
Definition config_no_redis_host : Config.t :=
  {| Config.DEFAULT_DATABASE_URL := "mongodb://127.0.0.1:27017/chattyapp-backend";
     Config.DATABASE_URL := Some "mongodb://127.0.0.1:27017/chattyapp-backend";
     Config.JWT_TOKEN := Some "1234";
     Config.NODE_ENV := Some "development";
     Config.SECRET_KEY_ONE := Some "first-key";
     Config.SECRET_KEY_TWO := Some "second-key";
     Config.CLIENT_URL := Some "http://localhost:3000";
     Config.REDIS_HOST := None |}.

(** ** Notions for the further properties *)

(** The [url]s of the [mongoose.connect] calls of a trace, in order. *)
Fixpoint mongoose_connects (tr : list Event) : list string :=
  match tr with
  | [] => []
  | EvMongooseConnect url :: rest => url :: mongoose_connects rest
  | _ :: rest => mongoose_connects rest
  end.

Definition is_rejection (s : SetupDatabase.Signal) : bool :=
  match s with SetupDatabase.ConnectRejected _ => true | _ => false end.

Definition is_disconnect (s : SetupDatabase.Signal) : bool :=
  match s with SetupDatabase.Disconnected => true | _ => false end.

(** The number of signals of a sequence that satisfy [f]. *)
Fixpoint count_signals (f : SetupDatabase.Signal -> bool)
    (ss : list SetupDatabase.Signal) : nat :=
  match ss with
  | [] => 0%nat
  | s :: rest => ((if f s then 1 else 0) + count_signals f rest)%nat
  end.

(** A call of a logger. *)
Definition is_log (ev : Event) : bool :=
  match ev with
  | EvLogInfo _ _ | EvLogError _ _ => true
  | _ => false
  end.

(** What the error middleware makes of a failure that reaches it as the
    last layer of the stack. *)
Definition error_outcome (e : Thrown) : list Event * ChattyServer.Final :=
  match e with
  | ThrownCustom c =>
      ([EvLogError "server" [LogErr e]],
       ChattyServer.Sent (CustomError.statusCode c)
         (IError_to_json (CustomError.serializeErrors c)))
  | ThrownOther _ _ _ =>
      ([EvLogError "server" [LogErr e]], ChattyServer.Unanswered None)
  end.



(** A route whose handler throws a member of the taxonomy. *)
Definition signin_route : RouteDef :=
  {| r_matches := fun req => bool_decide (originalUrl req = "/api/v1/signin");
     r_handler := fun _ =>
       Raise (ThrownCustom (CustomError.new BadRequestError "Invalid credentials")) |}.

Definition post_signin : Request :=
  {| method := "POST"; originalUrl := "/api/v1/signin" |}.

(** The failure of the body parser of [express.json] on a body over its
    limit: an error of the library, not of the taxonomy. *)
Definition payload_too_large : Thrown :=
  ThrownOther "PayloadTooLargeError" "request entity too large" "".

(** Library middleware with a body parser that rejects the request. *)
Definition library_body_over_limit : Layer -> Request -> Action :=
  fun l _ => match l with json _ => Raise payload_too_large | _ => CallNext end.

(** The subscribe-side link never settles. *)
Definition rt_sub_pending : Runtime :=
  {| process_env := env_no_database_url;
     process_pid := 4242;
     create_client := None;
     pub_promise := Fulfilled;
     sub_promise := Pending;
     pub_settles_first := true;
     port_bound := true |}.

(** Checks the layers before a given index of a concrete stack one by one. *)
Ltac first_actor_at_index :=
  let j := fresh "j" in
  let l' := fresh "l" in
  let Hj := fresh "Hj" in
  let Hl := fresh "Hl" in
  intros j l' Hj Hl;
  repeat (destruct j as [|j]; [vm_compute in Hl; injection Hl as <-; reflexivity|]);
  lia.

(** Goes through a membership in an explicit list, element by element. *)
Ltac decide_membership H :=
  repeat (apply elem_of_cons in H as [H|H]; [try discriminate H|]);
  try (inversion H; fail).

(** Unfolds a run of [startServer] down to its list of events. *)
Ltac run_startServer :=
  cbv [startServer_events startServer_result boot
       ChattyServer.startServer ChattyServer.createSocketIO
       ChattyServer.startHttpServer ChattyServer.socketIOConnections
       ChattyServer.createClient
       ChattyServer.await_all try_catch bind emit ret throw lift log_info
       log_error pub_settles_first pub_connect sub_connect create_client
       pub_promise sub_promise port_bound
       process_pid stack trace fst snd app].

(** * Properties *)

(** ** The error taxonomy *)

(** C4: for each of the six kinds of the taxonomy and every message,
    [serializeErrors] of a new instance is exactly the record with the
    message unchanged, the status ["error"] and the documented status code
    (400, 400, 401, 404, 413, 503). *)
Theorem serializeErrors_documented (k : ErrorClass) (msg : string) :
  CustomError.serializeErrors (CustomError.new k msg)
  = {| IError.message := msg;
       IError.status := "error";
       IError.statusCode := documented_statusCode k |}.
Proof. destruct k; reflexivity. Qed.

(** ** The settings object *)

Lemma validate_entries_defined (es : list (string * option string)) :
  Forall (fun kv => is_Some kv.2) es -> Config.validate_entries es = Ret tt.
Proof.
  induction 1 as [|[key v] rest [s Hs] _ IH]; [reflexivity|].
  simpl in Hs. subst v. exact IH.
Qed.

Lemma validate_entries_first_undefined
    (pre post : list (string * option string)) (key : string) :
  Forall (fun kv => is_Some kv.2) pre ->
  Config.validate_entries (pre ++ (key, None) :: post)
  = Throw (ThrownOther "Error" ("Configuration " +:+ key +:+ " is undefined.") "").
Proof.
  induction 1 as [|[k v] rest [s Hs] _ IH]; [reflexivity|].
  simpl in Hs. subst v. exact IH.
Qed.

Lemma entries_new_defined (env : gmap string string) :
  Forall (fun kv => is_Some kv.2) (Config.entries (Config.new env)).
Proof. unfold Config.entries, Config.new. repeat constructor; simpl; eauto. Qed.

(** C9: whatever the environment holds, the constructor leaves no field
    undefined, an absent variable giving the field its fallback (the built-in
    database address, ['1234'] for the token secret, the empty string for the
    rest), and [validateConfig] returns without throwing. *)
Theorem config_validation_always_succeeds (env : gmap string string) :
  Forall (fun kv => is_Some kv.2) (Config.entries (Config.new env))
  /\ Config.validateConfig (Config.new env) = Ret tt
  /\ (env !! "DATABASE_URL" = None ->
      Config.DATABASE_URL (Config.new env)
      = Some "mongodb://127.0.0.1:27017/chattyapp-backend")
  /\ (env !! "JWT_TOKEN" = None -> Config.JWT_TOKEN (Config.new env) = Some "1234")
  /\ (env !! "NODE_ENV" = None -> Config.NODE_ENV (Config.new env) = Some "")
  /\ (env !! "SECRET_KEY_ONE" = None ->
      Config.SECRET_KEY_ONE (Config.new env) = Some "")
  /\ (env !! "SECRET_KEY_TWO" = None ->
      Config.SECRET_KEY_TWO (Config.new env) = Some "")
  /\ (env !! "CLIENT_URL" = None -> Config.CLIENT_URL (Config.new env) = Some "")
  /\ (env !! "REDIS_HOST" = None -> Config.REDIS_HOST (Config.new env) = Some "").
Proof.
  split; [apply entries_new_defined|].
  split; [apply validate_entries_defined, entries_new_defined|].
  unfold Config.new; simpl.
  repeat split; intros ->; reflexivity.
Qed.

(** The constructor and the validation with nothing at all in the
    environment. *)
Lemma config_validation_always_succeeds_witness :
  Config.validateConfig (Config.new ∅) = Ret tt
  /\ Config.DATABASE_URL (Config.new ∅)
     = Some "mongodb://127.0.0.1:27017/chattyapp-backend"
  /\ Config.JWT_TOKEN (Config.new ∅) = Some "1234"
  /\ Config.NODE_ENV (Config.new ∅) = Some ""
  /\ Config.SECRET_KEY_ONE (Config.new ∅) = Some ""
  /\ Config.SECRET_KEY_TWO (Config.new ∅) = Some ""
  /\ Config.CLIENT_URL (Config.new ∅) = Some ""
  /\ Config.REDIS_HOST (Config.new ∅) = Some "".
Proof.
  destruct (config_validation_always_succeeds ∅)
    as (_ & Hv & Hdb & Hjwt & Hnode & Hk1 & Hk2 & Hcl & Hre).
  split_and!;
    [ exact Hv | apply Hdb | apply Hjwt | apply Hnode | apply Hk1 | apply Hk2
    | apply Hcl | apply Hre ]; reflexivity.
Defined.

(** ** Running the pieces of [start] *)

Lemma world_eta (w : World) : {| stack := stack w; trace := trace w |} = w.
Proof. destruct w; reflexivity. Qed.

Lemma applicationRoutes_run (rs : list RouteDef) (w : World) :
  ChattyServer.applicationRoutes rs w
  = (Ret tt, {| stack := stack w ++ (route <$> rs); trace := trace w |}).
Proof.
  revert w. induction rs as [|r rs IH]; intros w; simpl.
  - unfold ret. rewrite app_nil_r, world_eta. reflexivity.
  - unfold bind, app_use at 1. rewrite IH. simpl.
    rewrite <- app_assoc. reflexivity.
Qed.

Lemma startServer_run (config : Config.t) (rt : Runtime) (w : World) :
  ChattyServer.startServer config rt w
  = (startServer_result config rt,
     {| stack := stack w; trace := trace w ++ startServer_events config rt |}).
Proof.
  unfold startServer_result, startServer_events, boot.
  destruct rt as [env pid [ec|] [|e1|] [|e2|] [|] [|]];
    cbv [ChattyServer.startServer ChattyServer.createSocketIO
         ChattyServer.createClient
         ChattyServer.startHttpServer ChattyServer.socketIOConnections
         ChattyServer.await_all try_catch bind emit ret throw lift log_info
         log_error pub_settles_first pub_connect sub_connect create_client
         pub_promise sub_promise port_bound
         process_pid stack trace fst snd];
    rewrite <- ?app_assoc; reflexivity.
Qed.

Lemma start_run (config : Config.t) (rt : Runtime) (routes : list RouteDef)
    (w : World) :
  ChattyServer.start config rt routes w
  = (Ret tt,
     {| stack := stack w ++ installed_layers config routes;
        trace := trace w ++ startServer_events config rt |}).
Proof.
  unfold ChattyServer.start, ChattyServer.routesMiddleware,
    ChattyServer.securityMiddleware, ChattyServer.standardMiddleware,
    ChattyServer.globalErrorHandler, detached, bind, app_use.
  simpl. rewrite applicationRoutes_run. simpl. rewrite startServer_run. simpl.
  assert (Hres : startServer_result config rt = Ret tt
                 \/ startServer_result config rt = Blocked).
  { unfold startServer_result.
    destruct rt as [env pid [ec|] [|e1|] [|e2|] [|] [|]]; cbv; auto. }
  unfold installed_layers, security_layers, standard_layers.
  rewrite <- !app_assoc. simpl.
  destruct Hres as [-> | ->]; reflexivity.
Qed.

Lemma initialize_run_valid (config : Config.t) (rt : Runtime)
    (routes : list RouteDef) (w : World) :
  Config.validateConfig config = Ret tt ->
  Application.initialize config rt routes w
  = (Ret tt,
     {| stack := installed_layers config routes;
        trace := trace w
                 ++ [EvMongooseConnect (template (Config.DATABASE_URL config));
                     EvMongooseOnDisconnected]
                 ++ startServer_events config rt |}).
Proof.
  intros Hv.
  unfold Application.initialize, Application.loadConfig,
    SetupDatabase.databaseConnection, SetupDatabase.connect,
    Application.express, bind, lift, emit.
  rewrite Hv. simpl. rewrite start_run. simpl.
  rewrite <- !app_assoc. reflexivity.
Qed.

Lemma initialize_run_invalid (config : Config.t) (rt : Runtime)
    (routes : list RouteDef) (w : World) (e : Thrown) :
  Config.validateConfig config = Throw e ->
  Application.initialize config rt routes w = (Throw e, w).
Proof.
  intros Hv.
  unfold Application.initialize, Application.loadConfig, bind, lift.
  rewrite Hv. reflexivity.
Qed.

Lemma validate_entries_cases (es : list (string * option string)) :
  Config.validate_entries es = Ret tt
  \/ exists e, Config.validate_entries es = Throw e.
Proof.
  induction es as [|[key [v|]] rest IH]; simpl; eauto.
Qed.

(** ** The order of the pipeline *)

Lemma StronglySorted_lookup {A} (R : A -> A -> Prop) (l : list A) (i j : nat)
    (a b : A) :
  StronglySorted R l -> (i < j)%nat -> l !! i = Some a -> l !! j = Some b -> R a b.
Proof.
  intros Hs. revert i j. induction Hs as [|x l Hs IH Hall]; intros i j Hij Hi Hj.
  - rewrite lookup_nil in Hi. discriminate.
  - destruct j as [|j]; [lia|]. simpl in Hj.
    destruct i as [|i]; simpl in Hi.
    + injection Hi as ->. rewrite Forall_forall in Hall.
      apply Hall. eapply list_elem_of_lookup_2. exact Hj.
    + apply (IH i j); [lia|assumption|assumption].
Qed.

Lemma installed_layers_sorted (config : Config.t) (routes : list RouteDef) :
  StronglySorted stage_le (installed_layers config routes).
Proof.
  unfold installed_layers, security_layers, standard_layers.
  assert (Hroutes : forall rs,
             StronglySorted stage_le
               ((route <$> rs) ++ [all_star; error_middleware])).
  { induction rs as [|r rs IH]; simpl.
    - repeat constructor.
    - constructor; [exact IH|].
      rewrite Forall_app. split.
      + rewrite Forall_fmap. apply Forall_true. intros r'. unfold stage_le. simpl. lia.
      + repeat constructor. }
  assert (Hlater : forall l, l ∈ (route <$> routes) ++ [all_star; error_middleware] ->
                             (2 <= stage_rank (stage_of l))%nat).
  { intros l Hl. rewrite elem_of_app in Hl. destruct Hl as [Hl|Hl].
    - apply list_elem_of_fmap in Hl as (r & -> & _). simpl. lia.
    - rewrite !elem_of_cons in Hl.
      destruct Hl as [->|[->|Hl]]; simpl; [lia|lia|]. inversion Hl. }
  simpl.
  repeat (constructor;
          [|rewrite ?Forall_cons; repeat split;
            try (unfold stage_le; simpl; lia);
            rewrite Forall_forall; intros l Hl;
            apply Hlater in Hl; unfold stage_le; simpl; lia]).
  apply Hroutes.
Qed.

(** C6: [start] mounts the layers of the security stage, then those of the
    body decoding, then the routes, then the not-found handler and last the
    error middleware; so in the stack of a started application a layer of an
    earlier stage always sits before a layer of a later stage. *)
Theorem pipeline_installed_in_order (config : Config.t) (rt : Runtime)
    (routes : list RouteDef) :
  (forall w,
      stack (ChattyServer.start config rt routes w).2
      = stack w ++ security_layers config ++ standard_layers
        ++ (route <$> routes) ++ [all_star; error_middleware])
  /\ (forall (i j : nat) (a b : Layer),
         stack (ChattyServer.start config rt routes boot).2 !! i = Some a ->
         stack (ChattyServer.start config rt routes boot).2 !! j = Some b ->
         (stage_rank (stage_of a) < stage_rank (stage_of b))%nat ->
         (i < j)%nat).
Proof.
  split.
  - intros w. rewrite start_run. reflexivity.
  - intros i j a b. rewrite start_run. simpl. intros Hi Hj Hlt.
    destruct (decide (i < j)%nat) as [|Hge]; [assumption|exfalso].
    destruct (decide (i = j)) as [->|Hne].
    + rewrite Hi in Hj. injection Hj as ->. lia.
    + assert (Hle : stage_le b a).
      { apply (StronglySorted_lookup stage_le (installed_layers config routes) j i);
          [apply installed_layers_sorted|lia|assumption|assumption]. }
      unfold stage_le in Hle. lia.
Qed.

(** With one route mounted: the body parser, at index 5, sits before the
    route, at index 7. *)
Lemma pipeline_installed_in_order_witness :
  stack (ChattyServer.start (Config.new env_no_database_url) rt_links_up
           [user_route] boot).2 !! 5%nat = Some (json "50mb")
  /\ stack (ChattyServer.start (Config.new env_no_database_url) rt_links_up
              [user_route] boot).2 !! 7%nat = Some (route user_route)
  /\ (5 < 7)%nat.
Proof.
  split; [reflexivity|]. split; [reflexivity|].
  apply (proj2 (pipeline_installed_in_order (Config.new env_no_database_url)
                  rt_links_up [user_route])
           5%nat 7%nat (json "50mb") (route user_route));
    [reflexivity|reflexivity|simpl; lia].
Defined.

(** ** Requests through the pipeline *)

Lemma dispatch_pass (library : Layer -> Request -> Action) (req : Request)
    (ls rest : list Layer) :
  (forall l, l ∈ ls ->
             l <> error_middleware /\ ChattyServer.run_layer library l req = CallNext) ->
  ChattyServer.dispatch library (ls ++ rest) None req
  = ChattyServer.dispatch library rest None req.
Proof.
  induction ls as [|l ls IH]; intros Hpass; [reflexivity|].
  destruct (Hpass l) as [Hne Hrun]; [left|].
  assert (Hrest : ChattyServer.dispatch library (ls ++ rest) None req
                  = ChattyServer.dispatch library rest None req).
  { apply IH. intros l' Hl'. apply Hpass. right. exact Hl'. }
  destruct l; simpl in *;
    try (rewrite Hrun; exact Hrest); try discriminate Hrun.
  congruence.
Qed.

(** C7, as the specification states it, fails: a preflight [OPTIONS /nope],
    which no route matches, is answered by the [cors] layer with status 200
    and no body; and for [GET /%E0%A4%A], which no route matches either, the
    framework cannot decode the path for ['*'], the not-found handler never
    runs, the failure is logged by the error middleware and no layer
    answers. *)
Lemma unmatched_request_counterexample :
  (forall r, r ∈ [user_route] -> r_matches r options_nope = false)
  /\ ChattyServer.dispatch cors_preflight_library
       (stack (ChattyServer.start (Config.new env_no_database_url) rt_links_up
                 [user_route] boot).2) None options_nope
     = ([], ChattyServer.SentEmpty 200)
  /\ (forall r, r ∈ [user_route] -> r_matches r get_malformed = false)
  /\ ChattyServer.dispatch undecodable_path_library
       (stack (ChattyServer.start (Config.new env_no_database_url) rt_links_up
                 [user_route] boot).2) None get_malformed
     = ([EvLogError "server" [LogErr uri_error]], ChattyServer.Unanswered None).
Proof.
  split_and!.
  - intros r Hr. apply list_elem_of_singleton in Hr. subst r. reflexivity.
  - vm_compute. reflexivity.
  - intros r Hr. apply list_elem_of_singleton in Hr. subst r. reflexivity.
  - vm_compute. reflexivity.
Qed.

(** C7, amended: a request that the security and body layers hand on, whose
    path the framework can decode when it matches ['*'], and that no mounted
    route matches is answered by the not-found handler: status 404 and the
    body [{"message": "<originalUrl> not found"}]. *)
Theorem unmatched_request_answered_404 (config : Config.t) (rt : Runtime)
    (routes : list RouteDef) (library : Layer -> Request -> Action)
    (req : Request) :
  (forall l, l ∈ security_layers config ++ standard_layers ->
             library l req = CallNext) ->
  (forall e, library all_star req <> Raise e) ->
  (forall r, r ∈ routes -> r_matches r req = false) ->
  ChattyServer.dispatch library
    (stack (ChattyServer.start config rt routes boot).2) None req
  = ([], ChattyServer.Sent 404
           (JObject [("message", JString (originalUrl req +:+ " not found"))])).
Proof.
  intros Hlib Hdecodes Hroutes. rewrite start_run.
  unfold boot. cbn [snd stack]. rewrite app_nil_l.
  unfold installed_layers.
  rewrite (app_assoc (security_layers config)).
  rewrite dispatch_pass.
  - rewrite dispatch_pass.
    + simpl. destruct (library all_star req) as [s b| |e|s] eqn:Hstar;
        try reflexivity.
      exfalso. exact (Hdecodes e eq_refl).
    + intros l Hl. apply list_elem_of_fmap in Hl as (r & -> & Hr).
      split; [discriminate|]. simpl. rewrite (Hroutes r Hr). reflexivity.
  - intros l Hl. pose proof (Hlib l Hl) as Hrun.
    unfold security_layers, standard_layers in Hl. simpl in Hl.
    rewrite !elem_of_cons in Hl.
    destruct Hl as [->|[->|[->|[->|[->|[->|[->|Hl]]]]]]];
      try (split; [discriminate|exact Hrun]).
    inversion Hl.
Qed.

(** [GET /nope] with a route mounted for another path: 404 and
    [{"message": "/nope not found"}]. *)
Lemma unmatched_request_answered_404_witness :
  ChattyServer.dispatch passing_library
    (stack (ChattyServer.start (Config.new env_no_database_url) rt_links_up
              [user_route] boot).2) None get_nope
  = ([], ChattyServer.Sent 404 (JObject [("message", JString "/nope not found")])).
Proof.
  apply (unmatched_request_answered_404 (Config.new env_no_database_url)
           rt_links_up [user_route] passing_library get_nope).
  - intros l _. reflexivity.
  - intros e. discriminate.
  - intros r Hr. apply list_elem_of_singleton in Hr. subst r. reflexivity.
Defined.

(** C1, as the specification states it, fails: a fault of the runtime
    thrown by a route reaches the error middleware, which answers nothing,
    let alone a record with a status of the 500 class; the request leaves
    the stack unanswered with no failure pending. *)
Lemma unclassified_failure_counterexample :
  instanceof_CustomError type_error = false
  /\ ~ (exists s b, (ChattyServer.errorHandler type_error get_user).2 = Respond s b
                    /\ is_5xx s)
  /\ ChattyServer.dispatch passing_library
       (stack (ChattyServer.start (Config.new env_no_database_url) rt_links_up
                 [user_route] boot).2) None get_user
     = ([EvLogError "server" [LogErr type_error]], ChattyServer.Unanswered None).
Proof.
  split; [reflexivity|]. split; [|reflexivity].
  intros (s & b & Hact & _). discriminate Hact.
Qed.

(** C1, amended: a failure that is not an instance of [CustomError] is
    logged by the error middleware, which then calls [next()] without
    writing a response; being the last layer, it leaves the request
    unanswered with no failure pending, and sends nothing of the failure to
    the client. *)
Theorem unclassified_failure_logged_and_handed_on (error : Thrown)
    (req : Request) :
  instanceof_CustomError error = false ->
  ChattyServer.errorHandler error req
  = ([EvLogError ChattyServer.log [LogErr error]], CallNext)
  /\ forall library,
       ChattyServer.dispatch library [error_middleware] (Some error) req
       = ([EvLogError ChattyServer.log [LogErr error]], ChattyServer.Unanswered None).
Proof.
  intros Hinst. destruct error as [e|name message stack]; [discriminate Hinst|].
  split; [reflexivity|]. intros library. reflexivity.
Qed.

Lemma unclassified_failure_logged_and_handed_on_witness :
  ChattyServer.errorHandler type_error get_user
  = ([EvLogError "server" [LogErr type_error]], CallNext).
Proof.
  apply (unclassified_failure_logged_and_handed_on type_error get_user).
  reflexivity.
Defined.

(** ** The start of the server *)





Lemma startServer_events_listen (config : Config.t) (rt : Runtime) (port : Z) :
  EvListen port ∈ startServer_events config rt -> port = ChattyServer.SERVER_PORT.
Proof.
  destruct rt as [env pid [ec|] [|e1|] [|e2|] [|] [|]]; run_startServer; intros H;
    repeat (apply elem_of_cons in H as [H|H];
            [first [discriminate H | injection H as ->; reflexivity]|]);
    inversion H.
Qed.

(** C10: whatever the settings object, the environment and the broker, the
    only port the process ever listens on is the constant 5000. *)
Theorem listens_on_port_5000_only (config : Config.t) (rt : Runtime)
    (routes : list RouteDef) (port : Z) :
  EvListen port ∈ trace (Application.initialize config rt routes boot).2 ->
  port = 5000.
Proof.
  destruct (validate_entries_cases (Config.entries config)) as [Hv|[e Hv]].
  - rewrite (initialize_run_valid config rt routes boot Hv). cbn [snd trace boot].
    rewrite app_nil_l, elem_of_app, !elem_of_cons.
    intros [[H|[H|H]]|H]; [discriminate H|discriminate H|inversion H|].
    apply (startServer_events_listen config rt port H).
  - rewrite (initialize_run_invalid config rt routes boot e Hv). cbn [snd trace boot].
    intros H. inversion H.
Qed.

(** With the broker up the process does listen, and on port 5000. *)
Lemma listens_on_port_5000_only_witness :
  EvListen 5000
  ∈ trace (Application.initialize (Config.new env_no_database_url) rt_links_up
             [user_route] boot).2
  /\ ChattyServer.SERVER_PORT = 5000.
Proof.
  assert (H : EvListen 5000
              ∈ trace (Application.initialize (Config.new env_no_database_url)
                         rt_links_up [user_route] boot).2).
  { vm_compute. do 12 right. left. }
  split; [exact H|].
  exact (listens_on_port_5000_only (Config.new env_no_database_url)
           rt_links_up [user_route] 5000 H).
Defined.

Lemma startServer_events_no_exit (config : Config.t) (rt : Runtime) (code : Z) :
  EvProcessExit code ∉ startServer_events config rt.
Proof.
  destruct rt as [env pid [ec|] [|e1|] [|e2|] [|] [|]]; run_startServer; intros H;
    repeat (apply elem_of_cons in H as [H|H]; [discriminate H|]);
    inversion H.
Qed.

Lemma startServer_rejected (config : Config.t) (rt : Runtime) :
  (exists e, pub_connect rt = Rejected e) \/ (exists e, sub_connect rt = Rejected e) ->
  startServer_result config rt = Ret tt
  /\ (forall port, EvListen port ∉ startServer_events config rt)
  /\ exists e, last (startServer_events config rt)
               = Some (EvLogError ChattyServer.log [LogErr e]).
Proof.
  destruct rt as [env pid [ec|] [|e1|] [|e2|] [|] [|]]; simpl;
    intros [[e He]|[e He]]; try discriminate He;
    (split; [reflexivity|]);
    (split;
     [ intros port; run_startServer; intros H;
       repeat (apply elem_of_cons in H as [H|H]; [discriminate H|]);
       inversion H
     | run_startServer; eexists; reflexivity ]).
Qed.

(** C3, on the code: when the broker refuses a link, [startServer] logs the
    failure and returns; the server does not listen, and the process does
    not exit: no [process.exit] is among the events. *)
Theorem broker_link_failure_logged_not_fatal (config : Config.t)
    (rt : Runtime) (w : World) :
  (exists e, pub_connect rt = Rejected e) \/ (exists e, sub_connect rt = Rejected e) ->
  exists evs e,
    ChattyServer.startServer config rt w
    = (Ret tt, {| stack := stack w; trace := trace w ++ evs |})
    /\ last evs = Some (EvLogError ChattyServer.log [LogErr e])
    /\ (forall code, EvProcessExit code ∉ evs)
    /\ (forall port, EvListen port ∉ evs).
Proof.
  intros Hrej.
  destruct (startServer_rejected config rt Hrej) as (Hres & Hlisten & e & Hlast).
  exists (startServer_events config rt), e.
  rewrite startServer_run, Hres.
  split; [reflexivity|]. split; [exact Hlast|]. split; [|exact Hlisten].
  intros code. apply startServer_events_no_exit.
Qed.

(** The publish-side link is refused: the run ends with the failure logged
    and nothing after it. *)
Lemma broker_link_failure_logged_not_fatal_witness :
  exists evs e,
    ChattyServer.startServer (Config.new env_no_database_url) rt_pub_refused boot
    = (Ret tt, {| stack := stack boot; trace := trace boot ++ evs |})
    /\ last evs = Some (EvLogError ChattyServer.log [LogErr e])
    /\ (forall code, EvProcessExit code ∉ evs)
    /\ (forall port, EvListen port ∉ evs).
Proof.
  apply (broker_link_failure_logged_not_fatal (Config.new env_no_database_url)
           rt_pub_refused boot).
  left. exists econnrefused. reflexivity.
Defined.

(** The same run, event by event. *)
Example startServer_pub_refused :
  ChattyServer.startServer (Config.new env_no_database_url) rt_pub_refused boot
  = (Ret tt,
     {| stack := [];
        trace :=
          [ EvNewHttpServer;
            EvNewSocketServer (Some "http://localhost:3000")
              ["GET"; "POST"; "PUT"; "DELETE"; "OPTIONS"];
            EvCreateClient (Some "redis://localhost:6379");
            EvDuplicate;
            EvConnectCalled pubClient;
            EvConnectCalled subClient;
            EvLogError "server" [LogErr econnrefused] ] |}).
Proof. vm_compute. reflexivity. Qed.

(** ** The database connection *)

(** C8: when the first [mongoose.connect] rejects, the failure is logged and
    the process exits with status 1, and nothing runs after that; when it
    fulfils and the connection is lost later, [connect] is called again and
    the process neither exits nor fails. *)
Theorem database_failure_fatal_disconnect_reconnects (config : Config.t)
    (error : Thrown) (later : list SetupDatabase.Signal) (w : World) :
  let url := template (Config.DATABASE_URL config) in
  (SetupDatabase.databaseConnection config ;;
   SetupDatabase.deliver config (SetupDatabase.ConnectRejected error :: later))%js w
  = (Exit 1,
     {| stack := stack w;
        trace := trace w
                 ++ [ EvMongooseConnect url;
                      EvMongooseOnDisconnected;
                      EvLogError "setupDatabase"
                        [LogStr "Error connecting to database"; LogErr error];
                      EvProcessExit 1 ] |})
  /\ (SetupDatabase.databaseConnection config ;;
      SetupDatabase.deliver config
        [SetupDatabase.ConnectFulfilled; SetupDatabase.Disconnected])%js w
     = (Ret tt,
        {| stack := stack w;
           trace := trace w
                    ++ [ EvMongooseConnect url;
                         EvMongooseOnDisconnected;
                         EvLogInfo "setupDatabase" "Successfully connected to database";
                         EvMongooseConnect url ] |}).
Proof.
  intros url. split.
  - cbv [SetupDatabase.databaseConnection SetupDatabase.connect
         SetupDatabase.deliver SetupDatabase.on_signal bind emit log_error
         process_exit stack trace].
    rewrite <- !app_assoc. reflexivity.
  - cbv [SetupDatabase.databaseConnection SetupDatabase.connect
         SetupDatabase.deliver SetupDatabase.on_signal bind emit log_info ret
         stack trace].
    rewrite <- !app_assoc. reflexivity.
Qed.

(** ** Settings and startup *)

(** C2, as the specification states it, fails: with the database connection
    string absent from the environment, validation passes, the process does
    not exit and, the broker being up, the server listens. *)
Lemma missing_setting_not_fatal_counterexample :
  "DATABASE_URL" ∈ required_settings
  /\ process_env rt_links_up !! "DATABASE_URL" = None
  /\ Config.validateConfig (Config.new (process_env rt_links_up)) = Ret tt
  /\ (Application.main rt_links_up [user_route] boot).1 = Ret tt
  /\ EvListen 5000 ∈ trace (Application.main rt_links_up [user_route] boot).2
  /\ (forall code,
         EvProcessExit code ∉ trace (Application.main rt_links_up [user_route] boot).2).
Proof.
  assert (Hv : Config.validateConfig (Config.new (process_env rt_links_up)) = Ret tt)
    by apply validate_entries_defined, entries_new_defined.
  split; [left|]. split; [vm_compute; reflexivity|]. split; [exact Hv|].
  unfold Application.main.
  rewrite (initialize_run_valid _ rt_links_up [user_route] boot Hv).
  cbn [fst snd trace boot]. rewrite app_nil_l.
  split; [reflexivity|]. split.
  - vm_compute. do 12 right. left.
  - intros code. rewrite elem_of_app, !elem_of_cons.
    intros [[H|[H|H]]|H]; [discriminate H|discriminate H|inversion H|].
    exact (startServer_events_no_exit _ _ _ H).
Qed.

(** C2, amended: startup is aborted by [validateConfig], before the
    database connection, the middleware and the listening socket, with an
    [Error] whose message names the first key of the settings object whose
    value is undefined.  An absent database connection string or token
    secret does not abort it: the constructor gives the field its default
    and the validation passes. *)
Theorem undefined_setting_aborts_startup :
  (forall (config : Config.t) (rt : Runtime) (routes : list RouteDef) (w : World)
          (pre post : list (string * option string)) (key : string),
      Config.entries config = pre ++ (key, None) :: post ->
      Forall (fun kv => is_Some kv.2) pre ->
      Application.initialize config rt routes w
      = (Throw (ThrownOther "Error" ("Configuration " +:+ key +:+ " is undefined.") ""),
         w))
  /\ (forall env : gmap string string,
         env !! "DATABASE_URL" = None ->
         Config.DATABASE_URL (Config.new env)
         = Some "mongodb://127.0.0.1:27017/chattyapp-backend"
         /\ Config.validateConfig (Config.new env) = Ret tt)
  /\ (forall env : gmap string string,
         env !! "JWT_TOKEN" = None ->
         Config.JWT_TOKEN (Config.new env) = Some "1234"
         /\ Config.validateConfig (Config.new env) = Ret tt).
Proof.
  split; [|split].
  - intros config rt routes w pre post key Hentries Hpre.
    apply initialize_run_invalid. unfold Config.validateConfig.
    rewrite Hentries. apply validate_entries_first_undefined. exact Hpre.
  - intros env Habsent. split.
    + unfold Config.new. simpl. rewrite Habsent. reflexivity.
    + apply validate_entries_defined, entries_new_defined.
  - intros env Habsent. split.
    + unfold Config.new. simpl. rewrite Habsent. reflexivity.
    + apply validate_entries_defined, entries_new_defined.
Qed.

(** A settings object without a broker address stops [initialize] at once;
    an environment without a database connection string yields the default
    address. *)
Lemma undefined_setting_aborts_startup_witness :
  Application.initialize config_no_redis_host rt_links_up [user_route] boot
  = (Throw (ThrownOther "Error" "Configuration REDIS_HOST is undefined." ""), boot)
  /\ Config.DATABASE_URL (Config.new env_no_database_url)
     = Some "mongodb://127.0.0.1:27017/chattyapp-backend".
Proof.
  destruct undefined_setting_aborts_startup as (Habort & Hdb & _).
  split.
  - apply (Habort config_no_redis_host rt_links_up [user_route] boot
             (take 7 (Config.entries config_no_redis_host)) [] "REDIS_HOST").
    + reflexivity.
    + repeat constructor; simpl; eauto.
  - apply (Hdb env_no_database_url). vm_compute. reflexivity.
Defined.

(** * Further properties *)

(** ** The first layer that acts on a request *)

Lemma dispatch_first_act (library : Layer -> Request -> Action) (req : Request)
    (layers : list Layer) :
  forall (i : nat) (l : Layer),
    layers !! i = Some l ->
    l <> error_middleware ->
    (forall j l', (j < i)%nat -> layers !! j = Some l' ->
                  l' <> error_middleware
                  /\ ChattyServer.run_layer library l' req = CallNext) ->
    ChattyServer.dispatch library layers None req
    = match ChattyServer.run_layer library l req with
      | Respond s b => ([], ChattyServer.Sent s b)
      | CallNext => ChattyServer.dispatch library (drop (S i) layers) None req
      | Raise e => ChattyServer.dispatch library (drop (S i) layers) (Some e) req
      | RespondEmpty s => ([], ChattyServer.SentEmpty s)
      end.
Proof.
  induction layers as [|l0 layers IH]; intros i l Hi Hne Hbefore.
  - rewrite lookup_nil in Hi. discriminate Hi.
  - destruct i as [|i]; simpl in Hi.
    + injection Hi as ->. destruct l; try congruence; reflexivity.
    + destruct (Hbefore 0%nat l0) as [Hne0 Hpass0]; [lia|reflexivity|].
      change (l0 :: layers) with ([l0] ++ layers).
      rewrite dispatch_pass.
      * simpl drop. apply IH; [exact Hi|exact Hne|].
        intros j l' Hj Hl'. apply (Hbefore (S j) l'); [lia|exact Hl'].
      * intros l' Hl'. apply list_elem_of_singleton in Hl'. subst l'. auto.
Qed.

Lemma dispatch_pending (library : Layer -> Request -> Action) (req : Request)
    (e : Thrown) (ls : list Layer) :
  error_middleware ∉ ls ->
  ChattyServer.dispatch library (ls ++ [error_middleware]) (Some e) req
  = error_outcome e.
Proof.
  induction ls as [|l ls IH]; intros Hnot.
  - destruct e; reflexivity.
  - rewrite not_elem_of_cons in Hnot. destruct Hnot as [Hne Hnot].
    destruct l; try congruence; simpl; apply IH; exact Hnot.
Qed.

(** The layers [start] mounts before the error middleware. *)
Lemma installed_layers_body (config : Config.t) (routes : list RouteDef) :
  exists body,
    installed_layers config routes = body ++ [error_middleware]
    /\ error_middleware ∉ body.
Proof.
  exists (security_layers config ++ standard_layers ++ (route <$> routes)
          ++ [all_star]).
  split.
  - unfold installed_layers. rewrite <- !app_assoc. reflexivity.
  - rewrite !not_elem_of_app. split_and!.
    + unfold security_layers. rewrite !not_elem_of_cons.
      split_and!; try discriminate. apply not_elem_of_nil.
    + unfold standard_layers. rewrite !not_elem_of_cons.
      split_and!; try discriminate. apply not_elem_of_nil.
    + intros H. apply list_elem_of_fmap in H as (r & H & _). discriminate H.
    + rewrite not_elem_of_cons. split; [discriminate|apply not_elem_of_nil].
Qed.

Lemma first_actor_not_error_middleware (library : Layer -> Request -> Action)
    (req : Request) (body : list Layer) (i : nat) (l : Layer) :
  error_middleware ∉ body ->
  (body ++ [error_middleware]) !! i = Some l ->
  (l <> error_middleware -> (i < length body)%nat)
  /\ forall j l', (j < i)%nat -> (body ++ [error_middleware]) !! j = Some l' ->
                  (i < length body)%nat -> l' <> error_middleware.
Proof.
  intros Hnot Hi. split.
  - intros Hne. destruct (decide (i < length body)%nat) as [|Hge]; [assumption|].
    rewrite lookup_app_r in Hi by lia.
    destruct (i - length body)%nat as [|k]; simpl in Hi.
    + injection Hi as <-. congruence.
    + rewrite lookup_nil in Hi. discriminate Hi.
  - intros j l' Hj Hl' Hlt ->.
    rewrite lookup_app_l in Hl' by lia.
    apply Hnot. eapply list_elem_of_lookup_2. exact Hl'.
Qed.

(** What the installed pipeline does with a request, given the first layer
    that does not hand it on. *)
Lemma installed_first_act (config : Config.t) (routes : list RouteDef)
    (library : Layer -> Request -> Action) (req : Request) (i : nat) (l : Layer) :
  installed_layers config routes !! i = Some l ->
  l <> error_middleware ->
  (forall j l', (j < i)%nat -> installed_layers config routes !! j = Some l' ->
                ChattyServer.run_layer library l' req = CallNext) ->
  ChattyServer.dispatch library (installed_layers config routes) None req
  = match ChattyServer.run_layer library l req with
    | Respond s b => ([], ChattyServer.Sent s b)
    | CallNext =>
        ChattyServer.dispatch library
          (drop (S i) (installed_layers config routes)) None req
    | Raise e => error_outcome e
    | RespondEmpty s => ([], ChattyServer.SentEmpty s)
    end.
Proof.
  intros Hi Hne Hbefore.
  destruct (installed_layers_body config routes) as (body & Hbody & Hnot).
  rewrite Hbody in *.
  destruct (first_actor_not_error_middleware library req body i l Hnot Hi)
    as [Hlt Hothers].
  specialize (Hlt Hne).
  rewrite (dispatch_first_act library req _ i l Hi Hne).
  - destruct (ChattyServer.run_layer library l req); try reflexivity.
    rewrite drop_app_le by lia.
    apply dispatch_pending.
    intros Hin. apply Hnot. exact (subseteq_drop _ _ _ Hin).
  - intros j l' Hj Hl'. split; [|exact (Hbefore j l' Hj Hl')].
    exact (Hothers j l' Hj Hl' Hlt).
Qed.



(** X2: when the first layer that does not hand a request on is a route (or
    other layer) that throws [new K(msg)] for a class [K] of the taxonomy,
    the error middleware logs the error once and the client gets the status
    code of [K] with the body [{message: msg, status: "error", statusCode}]. *)
Theorem taxonomy_error_is_serialized_to_client (config : Config.t) (rt : Runtime)
    (routes : list RouteDef) (library : Layer -> Request -> Action)
    (req : Request) (i : nat) (l : Layer) (k : ErrorClass) (msg : string) :
  stack (ChattyServer.start config rt routes boot).2 !! i = Some l ->
  l <> error_middleware ->
  (forall j l', (j < i)%nat ->
                stack (ChattyServer.start config rt routes boot).2 !! j = Some l' ->
                ChattyServer.run_layer library l' req = CallNext) ->
  ChattyServer.run_layer library l req = Raise (ThrownCustom (CustomError.new k msg)) ->
  ChattyServer.dispatch library
    (stack (ChattyServer.start config rt routes boot).2) None req
  = ([EvLogError "server" [LogErr (ThrownCustom (CustomError.new k msg))]],
     ChattyServer.Sent (documented_statusCode k)
       (JObject [ ("message", JString msg);
                  ("status", JString "error");
                  ("statusCode", JNumber (documented_statusCode k)) ])).
Proof.
  rewrite start_run. unfold boot. cbn [snd stack]. rewrite app_nil_l.
  intros Hi Hne Hbefore Hrun.
  rewrite (installed_first_act config routes library req i l Hi Hne Hbefore).
  rewrite Hrun. destruct k; reflexivity.
Qed.

(** [POST /api/v1/signin] whose handler throws a [BadRequestError]. *)
Lemma taxonomy_error_is_serialized_to_client_witness :
  ChattyServer.dispatch passing_library
    (stack (ChattyServer.start (Config.new env_no_database_url) rt_links_up
              [user_route; signin_route] boot).2) None post_signin
  = ([EvLogError "server"
        [LogErr (ThrownCustom (CustomError.new BadRequestError "Invalid credentials"))]],
     ChattyServer.Sent 400
       (JObject [ ("message", JString "Invalid credentials");
                  ("status", JString "error");
                  ("statusCode", JNumber 400) ])).
Proof.
  apply (taxonomy_error_is_serialized_to_client (Config.new env_no_database_url)
           rt_links_up [user_route; signin_route] passing_library post_signin 8
           (route signin_route) BadRequestError "Invalid credentials").
  - vm_compute. reflexivity.
  - discriminate.
  - first_actor_at_index.
  - reflexivity.
Defined.

(** X3: when the first layer that does not hand a request on fails with
    something that is not a [CustomError] (the body parser on a body over
    its limit, a fault in a route), the routes after it and the not-found
    handler are passed over, the error middleware logs the failure once, and
    no layer answers: the request leaves the stack with no failure
    pending. *)
Theorem foreign_failure_is_logged_and_unanswered (config : Config.t)
    (rt : Runtime) (routes : list RouteDef)
    (library : Layer -> Request -> Action) (req : Request) (i : nat)
    (l : Layer) (e : Thrown) :
  stack (ChattyServer.start config rt routes boot).2 !! i = Some l ->
  l <> error_middleware ->
  (forall j l', (j < i)%nat ->
                stack (ChattyServer.start config rt routes boot).2 !! j = Some l' ->
                ChattyServer.run_layer library l' req = CallNext) ->
  ChattyServer.run_layer library l req = Raise e ->
  instanceof_CustomError e = false ->
  ChattyServer.dispatch library
    (stack (ChattyServer.start config rt routes boot).2) None req
  = ([EvLogError "server" [LogErr e]], ChattyServer.Unanswered None).
Proof.
  rewrite start_run. unfold boot. cbn [snd stack]. rewrite app_nil_l.
  intros Hi Hne Hbefore Hrun Hforeign.
  rewrite (installed_first_act config routes library req i l Hi Hne Hbefore).
  rewrite Hrun. destruct e; [discriminate Hforeign|reflexivity].
Qed.

(** The body parser rejects the body of a request for a mounted route. *)
Lemma foreign_failure_is_logged_and_unanswered_witness :
  ChattyServer.dispatch library_body_over_limit
    (stack (ChattyServer.start (Config.new env_no_database_url) rt_links_up
              [signin_route] boot).2) None post_signin
  = ([EvLogError "server" [LogErr payload_too_large]], ChattyServer.Unanswered None).
Proof.
  apply (foreign_failure_is_logged_and_unanswered (Config.new env_no_database_url)
           rt_links_up [signin_route] library_body_over_limit post_signin 5
           (json "50mb") payload_too_large).
  - vm_compute. reflexivity.
  - discriminate.
  - first_actor_at_index.
  - reflexivity.
  - reflexivity.
Defined.

(** ** The settings object, further *)

Lemma validate_entries_ok_defined (es : list (string * option string)) :
  Config.validate_entries es = Ret tt -> Forall (fun kv => is_Some kv.2) es.
Proof.
  induction es as [|[key [v|]] rest IH]; simpl; intros H.
  - constructor.
  - constructor; [simpl; eauto|apply IH; exact H].
  - discriminate H.
Qed.

(** X4: [validateConfig] returns normally exactly when none of the seven
    public fields of the settings object is undefined; otherwise it
    throws. *)
Theorem validateConfig_ok_iff_all_defined (this : Config.t) :
  Config.validateConfig this = Ret tt
  <-> is_Some (Config.DATABASE_URL this)
      /\ is_Some (Config.JWT_TOKEN this)
      /\ is_Some (Config.NODE_ENV this)
      /\ is_Some (Config.SECRET_KEY_ONE this)
      /\ is_Some (Config.SECRET_KEY_TWO this)
      /\ is_Some (Config.CLIENT_URL this)
      /\ is_Some (Config.REDIS_HOST this).
Proof.
  unfold Config.validateConfig. split.
  - intros H. apply validate_entries_ok_defined in H.
    unfold Config.entries in H. rewrite !Forall_cons in H. simpl in H.
    tauto.
  - intros (H1 & H2 & H3 & H4 & H5 & H6 & H7).
    apply validate_entries_defined. unfold Config.entries.
    repeat constructor; simpl; eauto.
Qed.

(** A settings object without a broker address is refused. *)
Lemma validateConfig_ok_iff_all_defined_witness :
  Config.validateConfig config_no_redis_host <> Ret tt.
Proof.
  intros H.
  apply (proj1 (validateConfig_ok_iff_all_defined config_no_redis_host)) in H.
  destruct H as (_ & _ & _ & _ & _ & _ & [s Hs]). discriminate Hs.
Defined.

Lemma js_or_insert_empty (env : gmap string string) (k key d : string) :
  js_or (<[k := ""]> env !! key) d = js_or (delete k env !! key) d.
Proof.
  destruct (decide (k = key)) as [->|Hne].
  - rewrite lookup_insert_eq, lookup_delete_eq. reflexivity.
  - rewrite lookup_insert_ne, lookup_delete_ne by assumption. reflexivity.
Qed.

(** X5: an environment variable set to the empty string counts as absent:
    the constructor builds the same settings object as without it. *)
Theorem empty_variable_is_absent (env : gmap string string) (k : string) :
  Config.new (<[k := ""]> env) = Config.new (delete k env).
Proof.
  unfold Config.new. cbv zeta. rewrite !js_or_insert_empty. reflexivity.
Qed.

Lemma js_or_insert_nonempty (env : gmap string string) (k s d : string) :
  s <> "" -> js_or (<[k := s]> env !! k) d = s.
Proof.
  intros Hs. rewrite lookup_insert_eq. simpl.
  destruct (decide (s = "")); [contradiction|reflexivity].
Qed.

(** X6: a variable set to a non-empty string reaches its field of the
    settings object unchanged, for each of the seven variables. *)
Theorem nonempty_variable_is_taken_verbatim (env : gmap string string)
    (s : string) :
  s <> "" ->
  Config.DATABASE_URL (Config.new (<["DATABASE_URL" := s]> env)) = Some s
  /\ Config.JWT_TOKEN (Config.new (<["JWT_TOKEN" := s]> env)) = Some s
  /\ Config.NODE_ENV (Config.new (<["NODE_ENV" := s]> env)) = Some s
  /\ Config.SECRET_KEY_ONE (Config.new (<["SECRET_KEY_ONE" := s]> env)) = Some s
  /\ Config.SECRET_KEY_TWO (Config.new (<["SECRET_KEY_TWO" := s]> env)) = Some s
  /\ Config.CLIENT_URL (Config.new (<["CLIENT_URL" := s]> env)) = Some s
  /\ Config.REDIS_HOST (Config.new (<["REDIS_HOST" := s]> env)) = Some s.
Proof.
  intros Hs. unfold Config.new. cbn [Config.DATABASE_URL Config.JWT_TOKEN
    Config.NODE_ENV Config.SECRET_KEY_ONE Config.SECRET_KEY_TWO
    Config.CLIENT_URL Config.REDIS_HOST].
  rewrite !js_or_insert_nonempty by exact Hs. split_and!; reflexivity.
Qed.

Lemma nonempty_variable_is_taken_verbatim_witness :
  Config.REDIS_HOST (Config.new (<["REDIS_HOST" := "redis://cache:6379"]> ∅))
  = Some "redis://cache:6379".
Proof.
  apply (nonempty_variable_is_taken_verbatim ∅ "redis://cache:6379").
  discriminate.
Defined.

Lemma js_or_is_development (o : option string) :
  js_or o "" = "development" <-> o = Some "development".
Proof.
  destruct o as [s|]; simpl.
  - destruct (decide (s = "")) as [->|Hne].
    + split; intros H; [discriminate H|injection H as H; discriminate H].
    + split; [intros ->; reflexivity|intros H; injection H as ->; reflexivity].
  - split; intros H; discriminate H.
Qed.

(** X7: the first layer of a started process is the session cookie, named
    ["session"], signed with the two secret keys of the environment (the
    empty string for a missing one), valid for seven days, and marked secure
    unless [NODE_ENV] is exactly ["development"]: with [NODE_ENV] absent the
    cookie is secure. *)
Theorem session_cookie_from_environment (rt : Runtime) (routes : list RouteDef) :
  stack (Application.main rt routes boot).2 !! 0%nat
  = Some (cookierSession "session"
            [ Some (js_or (process_env rt !! "SECRET_KEY_ONE") "");
              Some (js_or (process_env rt !! "SECRET_KEY_TWO") "") ]
            (7 * 24 * 60 * 60 * 1000)
            (negb (bool_decide (process_env rt !! "NODE_ENV" = Some "development")))).
Proof.
  unfold Application.main.
  rewrite initialize_run_valid
    by apply validate_entries_defined, entries_new_defined.
  cbn [snd stack]. unfold installed_layers, security_layers.
  cbn [app lookup list_lookup]. unfold Config.new.
  cbn [Config.SECRET_KEY_ONE Config.SECRET_KEY_TWO Config.NODE_ENV].
  do 3 f_equal. apply bool_decide_ext.
  rewrite <- (js_or_is_development (process_env rt !! "NODE_ENV")).
  split; [intros H; injection H as H; exact H|intros ->; reflexivity].
Qed.

(** ** The start of the server, further *)

(** X8: the HTTP pipeline and the socket server get the same cross-origin
    policy: the origin of the [cors] layer and the origin of the socket
    server are both [config.CLIENT_URL], with the same five methods, and the
    [cors] layer allows credentials. *)
Theorem http_and_socket_share_cors_policy (config : Config.t) (rt : Runtime)
    (routes : list RouteDef) (o o' : option string) (c : bool) (s : Z)
    (m m' : list string) :
  cors o c s m ∈ stack (ChattyServer.start config rt routes boot).2 ->
  EvNewSocketServer o' m' ∈ trace (ChattyServer.start config rt routes boot).2 ->
  o = Config.CLIENT_URL config /\ o' = o /\ m' = m
  /\ m = ["GET"; "POST"; "PUT"; "DELETE"; "OPTIONS"] /\ c = true.
Proof.
  rewrite start_run. unfold boot. cbn [snd stack trace]. rewrite !app_nil_l.
  intros Hcors Hsock.
  assert (Hlayer : o = Config.CLIENT_URL config
                   /\ m = ["GET"; "POST"; "PUT"; "DELETE"; "OPTIONS"] /\ c = true).
  { unfold installed_layers, security_layers, standard_layers in Hcors.
    simpl in Hcors.
    do 3 (apply elem_of_cons in Hcors as [Hcors|Hcors]; [discriminate Hcors|]).
    apply elem_of_cons in Hcors as [Hcors|Hcors].
    - injection Hcors as -> -> _ ->. auto.
    - do 3 (apply elem_of_cons in Hcors as [Hcors|Hcors]; [discriminate Hcors|]).
      apply elem_of_app in Hcors as [Hcors|Hcors].
      + apply list_elem_of_fmap in Hcors as (r & Hr & _). discriminate Hr.
      + decide_membership Hcors. }
  destruct Hlayer as (-> & -> & ->).
  assert (Hsocket : o' = Config.CLIENT_URL config
                    /\ m' = ChattyServer.allowed_methods).
  { revert Hsock.
    destruct rt as [env pid [ec|] [|e1|] [|e2|] [|] [|]]; run_startServer; intros Hsock;
      (apply elem_of_cons in Hsock as [Hsock|Hsock]; [discriminate Hsock|]);
      (apply elem_of_cons in Hsock as [Hsock|Hsock];
       [injection Hsock as -> ->; auto|]);
      decide_membership Hsock. }
  destruct Hsocket as [-> ->]. auto.
Qed.

Lemma http_and_socket_share_cors_policy_witness :
  Some "http://localhost:3000" = Config.CLIENT_URL (Config.new env_no_database_url).
Proof.
  apply (http_and_socket_share_cors_policy (Config.new env_no_database_url)
           rt_links_up [user_route] (Some "http://localhost:3000")
           (Some "http://localhost:3000") true 200
           ["GET"; "POST"; "PUT"; "DELETE"; "OPTIONS"]
           ["GET"; "POST"; "PUT"; "DELETE"; "OPTIONS"]).
  - vm_compute. do 3 right. left.
  - vm_compute. do 1 right. left.
Defined.

(** X9: whatever the broker does, [startServer] neither throws (its promise
    never rejects) nor ends the process: it returns or waits for ever, it
    leaves the stack of the application alone, and no [process.exit] is
    among the events it adds. *)
Theorem startServer_never_throws_or_exits (config : Config.t) (rt : Runtime)
    (w : World) :
  ((ChattyServer.startServer config rt w).1 = Ret tt
   \/ (ChattyServer.startServer config rt w).1 = Blocked)
  /\ stack (ChattyServer.startServer config rt w).2 = stack w
  /\ exists evs,
       trace (ChattyServer.startServer config rt w).2 = trace w ++ evs
       /\ forall code, EvProcessExit code ∉ evs.
Proof.
  rewrite startServer_run. cbn [fst snd stack trace].
  split; [|split; [reflexivity|]].
  - unfold startServer_result.
    destruct rt as [env pid [ec|] [|e1|] [|e2|] [|] [|]]; cbv; auto.
  - exists (startServer_events config rt). split; [reflexivity|].
    intros code. apply startServer_events_no_exit.
Qed.

(** X10: the adapter is attached and the server listens exactly when both
    [connect()] promises fulfil; a link that is refused or never settles
    means no adapter and no listening socket. *)
Theorem listens_iff_both_links_connect (config : Config.t) (rt : Runtime) :
  (EvListen 5000 ∈ trace (ChattyServer.startServer config rt boot).2
   <-> pub_connect rt = Fulfilled /\ sub_connect rt = Fulfilled)
  /\ (EvIoAdapter ∈ trace (ChattyServer.startServer config rt boot).2
      <-> pub_connect rt = Fulfilled /\ sub_connect rt = Fulfilled).
Proof.
  change (trace (ChattyServer.startServer config rt boot).2)
    with (startServer_events config rt).
  destruct rt as [env pid [ec|] [|e1|] [|e2|] [|] [|]]; run_startServer;
    (split;
     (split;
      [ intros H; first [split; reflexivity | decide_membership H]
      | intros [H1 H2]; first [discriminate H1 | discriminate H2
                               | repeat first [left | right]] ])).
Qed.

Lemma listens_iff_both_links_connect_witness :
  EvListen 5000
  ∈ trace (ChattyServer.startServer (Config.new env_no_database_url)
             rt_links_up boot).2.
Proof.
  apply (proj1 (listens_iff_both_links_connect (Config.new env_no_database_url)
                  rt_links_up)).
  split; reflexivity.
Defined.

(** X11: when no link is refused and one never settles, startup hangs
    without a trace: [startServer] waits for ever, [start] has returned
    normally, nothing is logged and the server does not listen. *)
Theorem pending_link_hangs_startup_silently (config : Config.t) (rt : Runtime)
    (routes : list RouteDef) :
  (forall e, pub_connect rt <> Rejected e) ->
  (forall e, sub_connect rt <> Rejected e) ->
  pub_connect rt = Pending \/ sub_connect rt = Pending ->
  (ChattyServer.startServer config rt boot).1 = Blocked
  /\ (ChattyServer.start config rt routes boot).1 = Ret tt
  /\ forall ev, ev ∈ trace (ChattyServer.start config rt routes boot).2 ->
                is_log ev = false /\ forall port, ev <> EvListen port.
Proof.
  rewrite start_run. unfold boot at 2 3. cbn [fst snd trace]. rewrite app_nil_l.
  change ((ChattyServer.startServer config rt boot).1)
    with (startServer_result config rt).
  destruct rt as [env pid [ec|] [|e1|] [|e2|] [|] [|]]; cbn [pub_connect sub_connect];
    intros Hpub Hsub Hpending;
    try (exfalso; destruct Hpending as [H|H]; discriminate H);
    try (exfalso; apply (Hpub e1); reflexivity);
    try (exfalso; apply (Hsub e2); reflexivity);
    (split; [reflexivity|]); (split; [reflexivity|]);
    run_startServer; intros ev Hev;
    repeat (apply elem_of_cons in Hev as [->|Hev];
            [split; [reflexivity|discriminate]|]);
    inversion Hev.
Qed.

Lemma pending_link_hangs_startup_silently_witness :
  (ChattyServer.startServer (Config.new env_no_database_url) rt_sub_pending boot).1
  = Blocked.
Proof.
  apply (pending_link_hangs_startup_silently (Config.new env_no_database_url)
           rt_sub_pending [user_route]).
  - intros e. discriminate.
  - intros e. discriminate.
  - right. reflexivity.
Defined.

(** X12: the only error [startServer] ever logs, on the logger ["server"],
    and alone, is the error [createClient] threw or, when the client was
    created, the reason for which one of the two [connect()] promises was
    rejected. *)
Theorem logged_error_is_client_or_link_failure (config : Config.t)
    (rt : Runtime) (logger : string) (args : list LogArg) :
  EvLogError logger args ∈ trace (ChattyServer.startServer config rt boot).2 ->
  logger = "server"
  /\ exists e,
       args = [LogErr e]
       /\ (create_client rt = Some e
           \/ (create_client rt = None
               /\ (pub_promise rt = Rejected e \/ sub_promise rt = Rejected e))).
Proof.
  change (trace (ChattyServer.startServer config rt boot).2)
    with (startServer_events config rt).
  destruct rt as [env pid [ec|] [|e1|] [|e2|] [|] [|]]; run_startServer; intros H;
    repeat (apply elem_of_cons in H as [H|H];
            [first [discriminate H
                   | injection H as -> ->; split; [reflexivity|];
                     eexists; split; [reflexivity|]; auto]|]);
    inversion H.
Qed.

(** The broker address is not a URL: what is logged is the error of
    [createClient]. *)
Lemma logged_error_is_client_or_link_failure_witness :
  exists e,
    [LogErr invalid_url] = [LogErr e]
    /\ (create_client rt_invalid_url = Some e
        \/ (create_client rt_invalid_url = None
            /\ (pub_promise rt_invalid_url = Rejected e
                \/ sub_promise rt_invalid_url = Rejected e))).
Proof.
  apply (logged_error_is_client_or_link_failure
           (Config.new (process_env rt_invalid_url)) rt_invalid_url "server"
           [LogErr invalid_url]).
  vm_compute. do 3 right. left.
Defined.

(** ** The database connection, further *)

Lemma deliver_result (config : Config.t) (ss : list SetupDatabase.Signal) :
  forall w,
    (SetupDatabase.deliver config ss w).1
    = if existsb is_rejection ss then Exit 1 else Ret tt.
Proof.
  induction ss as [|s ss IH]; intros w; [reflexivity|].
  destruct s as [|error|]; simpl.
  - unfold bind, log_info, emit. simpl. apply IH.
  - reflexivity.
  - unfold bind, SetupDatabase.connect, emit. simpl. apply IH.
Qed.

Lemma deliver_stops (config : Config.t) (error : Thrown)
    (pre post : list SetupDatabase.Signal) :
  forall w,
    SetupDatabase.deliver config (pre ++ SetupDatabase.ConnectRejected error :: post) w
    = SetupDatabase.deliver config (pre ++ [SetupDatabase.ConnectRejected error]) w.
Proof.
  induction pre as [|s pre IH]; intros w.
  - reflexivity.
  - simpl. unfold bind. destruct (SetupDatabase.on_signal config s w) as [[| | |] w'];
      try reflexivity.
    apply IH.
Qed.

Lemma databaseConnection_then {B} (config : Config.t) (k : M B) (w : World) :
  (SetupDatabase.databaseConnection config ;; k)%js w
  = k {| stack := stack w;
         trace := trace w
                  ++ [ EvMongooseConnect (template (Config.DATABASE_URL config));
                       EvMongooseOnDisconnected ] |}.
Proof.
  unfold bind at 1, SetupDatabase.databaseConnection, bind, SetupDatabase.connect,
    emit. simpl. rewrite <- app_assoc. reflexivity.
Qed.

(** X13: the callbacks of the database connection end the process, with
    status 1, exactly when one of the [mongoose.connect] calls rejects, the
    first one or a reconnect; what the driver reports after the first
    rejection has no effect at all. *)
Theorem database_exits_iff_a_connect_rejects (config : Config.t)
    (ss : list SetupDatabase.Signal) (w : World) :
  ((SetupDatabase.databaseConnection config ;;
    SetupDatabase.deliver config ss)%js w).1
  = (if existsb is_rejection ss then Exit 1 else Ret tt)
  /\ forall pre error post,
       ss = pre ++ SetupDatabase.ConnectRejected error :: post ->
       (SetupDatabase.databaseConnection config ;; SetupDatabase.deliver config ss)%js w
       = (SetupDatabase.databaseConnection config ;;
          SetupDatabase.deliver config
            (pre ++ [SetupDatabase.ConnectRejected error]))%js w.
Proof.
  split.
  - rewrite databaseConnection_then. apply deliver_result.
  - intros pre error post ->.
    rewrite !databaseConnection_then. apply deliver_stops.
Qed.

(** A reconnect that is refused ends the process too. *)
Lemma database_exits_iff_a_connect_rejects_witness :
  (SetupDatabase.databaseConnection (Config.new env_no_database_url) ;;
   SetupDatabase.deliver (Config.new env_no_database_url)
     [ SetupDatabase.ConnectFulfilled; SetupDatabase.Disconnected;
       SetupDatabase.ConnectRejected econnrefused; SetupDatabase.Disconnected ])%js
    boot
  = (SetupDatabase.databaseConnection (Config.new env_no_database_url) ;;
     SetupDatabase.deliver (Config.new env_no_database_url)
       ([SetupDatabase.ConnectFulfilled; SetupDatabase.Disconnected]
        ++ [SetupDatabase.ConnectRejected econnrefused]))%js boot.
Proof.
  apply (proj2 (database_exits_iff_a_connect_rejects
                  (Config.new env_no_database_url)
                  [ SetupDatabase.ConnectFulfilled; SetupDatabase.Disconnected;
                    SetupDatabase.ConnectRejected econnrefused;
                    SetupDatabase.Disconnected ] boot)
           [SetupDatabase.ConnectFulfilled; SetupDatabase.Disconnected]
           econnrefused [SetupDatabase.Disconnected]).
  reflexivity.
Defined.

Lemma mongoose_connects_app (a b : list Event) :
  mongoose_connects (a ++ b) = mongoose_connects a ++ mongoose_connects b.
Proof.
  induction a as [|ev a IH]; [reflexivity|].
  destruct ev; simpl; rewrite IH; reflexivity.
Qed.

Lemma deliver_connects (config : Config.t) (ss : list SetupDatabase.Signal) :
  forall w,
    existsb is_rejection ss = false ->
    mongoose_connects (trace (SetupDatabase.deliver config ss w).2)
    = mongoose_connects (trace w)
      ++ replicate (count_signals is_disconnect ss)
           (template (Config.DATABASE_URL config)).
Proof.
  induction ss as [|s ss IH]; intros w Hno.
  - simpl. rewrite app_nil_r. reflexivity.
  - destruct s as [|error|]; simpl in Hno; [| discriminate Hno |].
    + simpl. unfold bind, log_info, emit. simpl.
      rewrite IH by exact Hno. simpl.
      rewrite mongoose_connects_app. simpl. rewrite app_nil_r. reflexivity.
    + simpl. unfold bind, SetupDatabase.connect, emit. simpl.
      rewrite IH by exact Hno. simpl.
      rewrite mongoose_connects_app. simpl. rewrite <- app_assoc. reflexivity.
Qed.

(** X14: as long as no connect rejects, [mongoose.connect] is called once at
    the start and once more for every lost connection, and every call is
    given the same address, [config.DATABASE_URL]. *)
Theorem one_connect_per_lost_connection (config : Config.t)
    (ss : list SetupDatabase.Signal) (w : World) :
  existsb is_rejection ss = false ->
  mongoose_connects
    (trace ((SetupDatabase.databaseConnection config ;;
             SetupDatabase.deliver config ss)%js w).2)
  = mongoose_connects (trace w)
    ++ replicate (S (count_signals is_disconnect ss))
         (template (Config.DATABASE_URL config)).
Proof.
  intros Hno.
  rewrite databaseConnection_then.
  rewrite deliver_connects by exact Hno. cbn [trace].
  rewrite mongoose_connects_app. simpl. rewrite <- app_assoc.
  reflexivity.
Qed.

(** The connection is lost twice: three calls, to the default address. *)
Lemma one_connect_per_lost_connection_witness :
  mongoose_connects
    (trace ((SetupDatabase.databaseConnection (Config.new env_no_database_url) ;;
             SetupDatabase.deliver (Config.new env_no_database_url)
               [ SetupDatabase.ConnectFulfilled; SetupDatabase.Disconnected;
                 SetupDatabase.ConnectFulfilled; SetupDatabase.Disconnected ])%js
              boot).2)
  = mongoose_connects (trace boot)
    ++ replicate 3 (template (Config.DATABASE_URL (Config.new env_no_database_url))).
Proof.
  apply (one_connect_per_lost_connection (Config.new env_no_database_url)
           [ SetupDatabase.ConnectFulfilled; SetupDatabase.Disconnected;
             SetupDatabase.ConnectFulfilled; SetupDatabase.Disconnected ] boot).
  reflexivity.
Defined.

(** ** The entry point, further *)

(** X15: for every environment, every behaviour of the broker and every set
    of routes, the synchronous part of the entry point completes: it neither
    throws nor exits, it calls [mongoose.connect] (with the address of the
    environment or the default one) and registers the reconnect listener
    before anything of the server is set up, and it mounts nine layers
    besides the routes. *)
Theorem main_always_starts (rt : Runtime) (routes : list RouteDef) :
  (Application.main rt routes boot).1 = Ret tt
  /\ trace (Application.main rt routes boot).2
     = EvMongooseConnect
         (js_or (process_env rt !! "DATABASE_URL")
            "mongodb://127.0.0.1:27017/chattyapp-backend")
       :: EvMongooseOnDisconnected
       :: trace (ChattyServer.startServer (Config.new (process_env rt)) rt boot).2
  /\ length (stack (Application.main rt routes boot).2) = (9 + length routes)%nat.
Proof.
  unfold Application.main.
  rewrite initialize_run_valid
    by apply validate_entries_defined, entries_new_defined.
  cbn [fst snd stack trace boot]. split; [reflexivity|]. split; [reflexivity|].
  unfold installed_layers, security_layers, standard_layers.
  rewrite !length_app, length_fmap. simpl. lia.
Qed.

(** X16: every run of [startServer] begins the same way: the HTTP server
    and the socket server are created and [createClient] is called with
    [config.REDIS_HOST].  When [createClient] throws, the error is logged
    and that is all: the client is not duplicated and no [connect()] is
    called.  When it returns, the client is duplicated and [connect()] is
    called on both clients before either outcome is looked at. *)
Theorem startup_begins_with_both_servers_and_the_client (config : Config.t)
    (rt : Runtime) (w : World) :
  exists rest,
    trace (ChattyServer.startServer config rt w).2
    = trace w
      ++ [ EvNewHttpServer;
           EvNewSocketServer (Config.CLIENT_URL config)
             ["GET"; "POST"; "PUT"; "DELETE"; "OPTIONS"];
           EvCreateClient (Config.REDIS_HOST config) ]
      ++ rest
    /\ (forall e, create_client rt = Some e ->
                  rest = [EvLogError "server" [LogErr e]])
    /\ (create_client rt = None ->
        exists rest',
          rest = [EvDuplicate; EvConnectCalled pubClient; EvConnectCalled subClient]
                 ++ rest').
Proof.
  rewrite startServer_run. cbn [snd trace].
  destruct rt as [env pid [ec|] [|e1|] [|e2|] [|] [|]]; run_startServer;
    eexists; (split; [reflexivity|]);
    (split; [intros e He; first [discriminate He | injection He as <-; reflexivity]
            | intros Hc; first [discriminate Hc | eexists; reflexivity]]).
Qed.

(** The broker address is not a URL: the run ends with the error of
    [createClient] logged, and neither link was attempted. *)
Lemma startup_begins_with_both_servers_and_the_client_witness :
  trace (ChattyServer.startServer (Config.new (process_env rt_invalid_url))
           rt_invalid_url boot).2
  = [ EvNewHttpServer;
      EvNewSocketServer (Some "")
        ["GET"; "POST"; "PUT"; "DELETE"; "OPTIONS"];
      EvCreateClient (Some "localhost");
      EvLogError "server" [LogErr invalid_url] ].
Proof.
  destruct (startup_begins_with_both_servers_and_the_client
              (Config.new (process_env rt_invalid_url)) rt_invalid_url boot)
    as (rest & Htrace & Hthrows & _).
  rewrite Htrace, (Hthrows invalid_url eq_refl).
  vm_compute. reflexivity.
Defined.
